(** * encoder_video_libvpx_vp9: the VP9 encoder plugin

    A shallow embedding of [source/encoder_video_libvpx_vp9/plugin.py]:
    the [StreamMapper] class (codec test and per-mode encoder arguments) and
    the two runner hooks [on_library_management_file_test] and
    [on_worker_process], together with the parts of the Python runtime they
    rely on ([dict.get], item assignment, [str.lower], [str.format],
    [os.path.splitext]). *)

From stdpp Require Import gmap strings list fin_maps pretty.
From Stdlib Require Import ZArith Ascii String.

Open Scope string_scope.
Open Scope Z_scope.

(** ** Python values, exceptions and results *)

Module Py.

(** The values that occur in the dictionaries handled by the plugin. *)
#[warnings="-register-all"]
Inductive value : Type :=
  | VNone
  | VBool (b : bool)
  | VInt (z : Z)
  | VStr (s : string)
  | VList (l : list value).

(** The exceptions the embedded code can raise. *)
Inductive exn : Type :=
  | AttributeError
  | KeyError
  | TypeError.

Inductive result (A : Type) : Type :=
  | Ok (a : A)
  | Raise (e : exn).
Arguments Ok {A} a.
Arguments Raise {A} e.

Definition result_bind {A B} (r : result A) (k : A -> result B) : result B :=
  match r with
  | Ok a => k a
  | Raise e => Raise e
  end.

(** A Python [dict] with string keys. *)
Abbreviation dict := (gmap string value).

(** [d.get(key)]: the value stored at [key], [None] when the key is absent. *)
Definition get (d : dict) (key : string) : value :=
  match d !! key with
  | Some v => v
  | None => VNone
  end.

(** *** [str.lower] on the ASCII range

    Strings are sequences of bytes; codec names are ASCII, and only the
    ASCII capitals are changed. *)

Definition lower_ascii (c : ascii) : ascii :=
  let n := N_of_ascii c in
  if ((65 <=? n) && (n <=? 90))%N then ascii_of_N (n + 32) else c.

Fixpoint lower (s : string) : string :=
  match s with
  | EmptyString => EmptyString
  | String c t => String (lower_ascii c) (lower t)
  end.

(** [v.lower()]: only strings have the method. *)
Definition value_lower (v : value) : result string :=
  match v with
  | VStr s => Ok (lower s)
  | _ => Raise AttributeError
  end.

(** *** Slices and [str.rfind] *)

(** [p[:n]] for [0 <= n]. *)
Fixpoint take_str (n : nat) (p : string) : string :=
  match n, p with
  | S n', String c t => String c (take_str n' t)
  | _, _ => EmptyString
  end.

(** [p[n:]] for [0 <= n]. *)
Fixpoint drop_str (n : nat) (p : string) : string :=
  match n, p with
  | S n', String _ t => drop_str n' t
  | _, _ => p
  end.

(** [p.rfind(c)] for a one-character [c]: the highest index at which [c]
    occurs, [-1] when it does not occur. *)
Fixpoint rfind (c : ascii) (p : string) : Z :=
  match p with
  | EmptyString => -1
  | String x t =>
      let r := rfind c t in
      if (0 <=? r)%Z then (r + 1)%Z
      else if Ascii.eqb x c then 0 else -1
  end.

(** *** [os.path.splitext] (posixpath) *)

Definition sep : ascii := "/"%char.
Definition extsep : ascii := "."%char.

(** The [while filenameIndex < dotIndex] loop of [genericpath._splitext]:
    it skips the leading dots of the file name and splits at [dotIndex] as
    soon as it meets another character.  It runs at most
    [dotIndex - filenameIndex] times, which is the fuel it is started with. *)
Fixpoint splitext_loop (fuel : nat) (p : string) (dotIndex filenameIndex : Z)
  : string * string :=
  match fuel with
  | O => (p, "")
  | S fuel' =>
      if (filenameIndex <? dotIndex)%Z then
        if negb (String.eqb (take_str 1 (drop_str (Z.to_nat filenameIndex) p))
                            (String extsep ""))
        then (take_str (Z.to_nat dotIndex) p, drop_str (Z.to_nat dotIndex) p)
        else splitext_loop fuel' p dotIndex (filenameIndex + 1)%Z
      else (p, "")
  end.

Definition splitext (p : string) : string * string :=
  let sepIndex := rfind sep p in
  let dotIndex := rfind extsep p in
  if (sepIndex <? dotIndex)%Z then
    let filenameIndex := (sepIndex + 1)%Z in
    splitext_loop (Z.to_nat (dotIndex - filenameIndex)%Z) p dotIndex filenameIndex
  else (p, "").

(** [os.path.splitext(v)]: anything but a path raises [TypeError]. *)
Definition value_splitext (v : value) : result (string * string) :=
  match v with
  | VStr p => Ok (splitext p)
  | _ => Raise TypeError
  end.

(** ['{}'.format(i)] for an [int]. *)
Definition format_int (i : Z) : string := pretty i.

End Py.

Import Py.

(** ** Plugin settings *)

(** The configured values [Settings().get_setting(key)] returns for the five
    keys of [Settings.settings].  The field [cpu_used] is the key
    ['cpu-used']. *)
Record Settings : Type := {
  mode : string;
  crf : string;
  bitrate : string;
  deadline : string;
  cpu_used : string
}.

(** The defaults declared in [Settings.settings]. *)
Definition default_settings : Settings :=
  {| mode := "average_bitrate";
     crf := "31";
     bitrate := "2M";
     deadline := "good";
     cpu_used := "0" |}.

(** ** StreamMapper *)

(** The dictionary [custom_stream_mapping] returns. *)
Record Mapping : Type := {
  stream_mapping : list string;
  stream_encoding : list string
}.

Module StreamMapper.

(** The mapper is built for the ['video'] stream type. *)
Definition stream_type : string := "video".

Definition test_stream_needs_processing (stream_info : dict) : result bool :=
  result_bind (value_lower (get stream_info "codec_name")) (fun name =>
  if bool_decide (name ∈ ["vp9"]) then Ok false else Ok true).

Definition custom_stream_mapping (settings : Settings) (stream_info : dict)
    (stream_id : Z) : Mapping :=
  let encoder_mode := mode settings in
  let stream_encoding :=
    if String.eqb encoder_mode "average_bitrate" then
      [ "-c:v:" +:+ format_int stream_id; "libvpx-vp9";
        "-b:v:" +:+ format_int stream_id; bitrate settings;
        "-threads"; "8";
        "-row-mt"; "1";
        "-deadline"; deadline settings;
        "-cpu-used"; cpu_used settings ]
    else if String.eqb encoder_mode "constant_quality" then
      [ "-c:v:" +:+ format_int stream_id; "libvpx-vp9";
        "-crf"; crf settings;
        "-b:v:" +:+ format_int stream_id; "0";
        "-threads"; "8";
        "-row-mt"; "1";
        "-deadline"; deadline settings;
        "-cpu-used"; cpu_used settings ]
    else if String.eqb encoder_mode "constrained_quality" then
      [ "-c:v:" +:+ format_int stream_id; "libvpx-vp9";
        "-crf"; crf settings;
        "-b:v:" +:+ format_int stream_id; bitrate settings;
        "-threads"; "8";
        "-row-mt"; "1";
        "-deadline"; deadline settings;
        "-cpu-used"; cpu_used settings ]
    else if String.eqb encoder_mode "constant_bitrate" then
      [ "-c:v:" +:+ format_int stream_id; "libvpx-vp9";
        "-minrate"; bitrate settings;
        "-maxrate"; bitrate settings;
        "-b:v:" +:+ format_int stream_id; bitrate settings;
        "-threads"; "8";
        "-row-mt"; "1";
        "-deadline"; deadline settings;
        "-cpu-used"; cpu_used settings ]
    else if String.eqb encoder_mode "lossless" then
      [ "-c:v:" +:+ format_int stream_id; "libvpx-vp9";
        "-lossless"; "1";
        "-threads"; "8";
        "-row-mt"; "1";
        "-deadline"; deadline settings;
        "-cpu-used"; cpu_used settings ]
    else
      (* Default settings for 'Average Bitrate' encoder mode *)
      [ "-c:v:" +:+ format_int stream_id; "libvpx-vp9"; "-b:v"; "2M" ]
  in
  {| stream_mapping := [ "-map"; "0:v:" +:+ format_int stream_id ];
     stream_encoding := stream_encoding |}.

End StreamMapper.

(** ** FfmpegStreamMapper, as the hooks see it *)

(** [StreamMapper] inherits [file_probe], [streams_need_processing],
    [get_stream_mapping] and [get_stream_encoding] from
    [lib.ffmpeg_stream_mapping.FfmpegStreamMapper].  A hook builds a mapper,
    probes the file and then only asks these three questions; the record
    holds the answers for the probed file. *)
Record FfmpegStreamMapper : Type := {
  streams_need_processing : result bool;
  get_stream_mapping : list string;
  get_stream_encoding : list string
}.

(** Modelled from the spec: [lib/ffmpeg_stream_mapping.py] (the base class
    [FfmpegStreamMapper]) is not part of the sources.  The decision engine
    and the fragment aggregation follow sections 4.2, 4.3 and 6 of the
    specification: a stream is selected iff it is of the mapper's stream type
    and [test_stream_needs_processing] accepts it; the selected streams are
    taken in stream-index order; each contributes the fragment
    [custom_stream_mapping] derives for it; the file needs processing iff
    some stream is selected. *)
Module Engine.

(** Modelled from the spec: the [index] field of a stream descriptor
    (section 3); the probe code of [FfmpegStreamMapper] is missing. *)
Definition stream_index (stream : dict) : Z :=
  match get stream "index" with
  | VInt i => i
  | _ => 0
  end.

(** Modelled from the spec: the stream-type filter of the missing
    [FfmpegStreamMapper]: the stream's [stream_type] is the type the mapper
    was built for (section 4.2, "its type is video"). *)
Definition is_mapper_type (stream : dict) : bool :=
  match get stream "stream_type" with
  | VStr t => String.eqb t StreamMapper.stream_type
  | _ => false
  end.

(** Modelled from the spec: [needsProcessing] of section 4.2, the
    per-stream decision of the missing [FfmpegStreamMapper]: the type filter,
    then the plugin's own codec test. *)
Definition needsProcessing (stream : dict) : result bool :=
  if is_mapper_type stream
  then StreamMapper.test_stream_needs_processing stream
  else Ok false.

(** Modelled from the spec: the subset of the streams that need
    conversion (section 4.2), in probe order; the iteration of the missing
    [FfmpegStreamMapper] over the probed streams. *)
Fixpoint selectStreams (streams : list dict) : result (list dict) :=
  match streams with
  | [] => Ok []
  | stream :: rest =>
      result_bind (needsProcessing stream) (fun needed =>
      result_bind (selectStreams rest) (fun selected =>
      Ok (if needed then stream :: selected else selected)))
  end.

(** Modelled from the spec: ordering of the decided streams by stream
    index (section 4.3, step 2), missing with [FfmpegStreamMapper]. *)
Fixpoint insert_by_index (stream : dict) (sorted : list dict) : list dict :=
  match sorted with
  | [] => [stream]
  | s :: rest =>
      if (stream_index stream <=? stream_index s)%Z
      then stream :: s :: rest
      else s :: insert_by_index stream rest
  end.

(** Modelled from the spec: the decided streams in stream-index order
    (section 4.3, step 2), missing with [FfmpegStreamMapper]. *)
Definition sort_by_index (streams : list dict) : list dict :=
  foldr insert_by_index [] streams.

(** Modelled from the spec: [planStreams] of section 4.2 followed by the
    ordering of section 4.3, missing with [FfmpegStreamMapper]. *)
Definition planStreams (streams : list dict) : result (list dict) :=
  result_bind (selectStreams streams) (fun selected =>
  Ok (sort_by_index selected)).

(** Modelled from the spec: one fragment per decided stream (section 4.3,
    step 2), each derived by the plugin's [custom_stream_mapping]; the
    aggregation of the missing [FfmpegStreamMapper]. *)
Definition fragments (settings : Settings) (decided : list dict) : list Mapping :=
  (fun stream =>
     StreamMapper.custom_stream_mapping settings stream (stream_index stream))
  <$> decided.

(** Modelled from the spec: the decided streams the missing
    [FfmpegStreamMapper] holds after a decision pass; none when the pass
    raised. *)
Definition decided_or_nil (streams : list dict) : list dict :=
  match planStreams streams with
  | Ok decided => decided
  | Raise _ => []
  end.

(** Modelled from the spec: the answers of the missing
    [FfmpegStreamMapper] for a file whose probe lists [streams]: the file
    needs processing iff some stream is selected (section 6, pre-queue decision), and
    the selector and encoder arguments are the concatenations over the
    fragments (section 4.3, step 4). *)
Definition probe (settings : Settings) (streams : list dict) : FfmpegStreamMapper :=
  {| streams_need_processing :=
       result_bind (planStreams streams) (fun decided =>
       Ok (negb (bool_decide (decided = []))));
     get_stream_mapping :=
       List.concat (stream_mapping <$> fragments settings (decided_or_nil streams));
     get_stream_encoding :=
       List.concat (stream_encoding <$> fragments settings (decided_or_nil streams)) |}.

End Engine.

(** ** The runner hooks *)

(** A hook receives the host's [data] dictionary, updates it in place and
    returns it.  A computation of the hook threads the dictionary and either
    yields a value or raises; the dictionary is kept in both cases, since the
    updates made before an exception stay in the host's object. *)
Module Hook.

Definition M (A : Type) : Type := dict -> dict * result A.

Definition ret {A} (a : A) : M A := fun data => (data, Ok a).

Definition bind {A B} (m : M A) (k : A -> M B) : M B :=
  fun data =>
    match m data with
    | (data', Ok a) => k a data'
    | (data', Raise e) => (data', Raise e)
    end.

Definition lift {A} (r : result A) : M A := fun data => (data, r).

(** [data.get(key)] *)
Definition data_get (key : string) : M value :=
  fun data => (data, Ok (get data key)).

(** [data[key]] *)
Definition data_item (key : string) : M value :=
  fun data =>
    (data, match data !! key with
           | Some v => Ok v
           | None => Raise KeyError
           end).

(** [data[key] = v] *)
Definition data_set (key : string) (v : value) : M unit :=
  fun data => (<[key := v]> data, Ok tt).

(** [data[key] += l] for a list [l] *)
Definition data_iadd (key : string) (l : list value) : M unit :=
  bind (data_item key) (fun v =>
  match v with
  | VList l0 => data_set key (VList (l0 ++ l))
  | _ => lift (Raise TypeError)
  end).

Declare Scope hook_scope.
Delimit Scope hook_scope with hook.
Notation "x <- m ;; k" := (bind m (fun x => k))
  (at level 100, m at next level, right associativity) : hook_scope.
Notation "m ;;; k" := (bind m (fun _ => k))
  (at level 100, right associativity) : hook_scope.

Definition flag_key : string := "add_file_to_pending_tasks".

Definition on_library_management_file_test (mapper : FfmpegStreamMapper) : M unit :=
  (abspath <- data_get "path" ;;
   (* mapper.file_probe(abspath) *)
   need <- lift (streams_need_processing mapper) ;;
   if need : bool then data_set flag_key (VBool true) else ret tt)%hook.

Definition on_worker_process (mapper : FfmpegStreamMapper) : M unit :=
  (data_set "exec_ffmpeg" (VBool false) ;;;
   abspath <- data_get "file_in" ;;
   (* mapper.file_probe(abspath) *)
   need <- lift (streams_need_processing mapper) ;;
   (if need : bool then
      lift (streams_need_processing mapper) ;;;
      data_set "exec_ffmpeg" (VBool true) ;;;
      file_in <- data_get "file_in" ;;
      data_set "ffmpeg_args"
        (VList [VStr "-i"; file_in; VStr "-hide_banner"; VStr "-loglevel";
                VStr "info"]) ;;;
      data_iadd "ffmpeg_args" (VStr <$> get_stream_mapping mapper) ;;;
      data_iadd "ffmpeg_args" (VStr <$> get_stream_encoding mapper) ;;;
      file_in <- data_get "file_in" ;;
      split_file_in <- lift (value_splitext file_in) ;;
      file_out <- data_get "file_out" ;;
      split_file_out <- lift (value_splitext file_out) ;;
      data_set "file_out" (VStr (fst split_file_out +:+ snd split_file_in)) ;;;
      file_out <- data_get "file_out" ;;
      data_iadd "ffmpeg_args" [VStr "-y"; file_out]
    else ret tt) ;;;
   (* print(data['ffmpeg_args']) *)
   data_item "ffmpeg_args" ;;;
   ret tt)%hook.

End Hook.

(** ** Vocabulary of the statements *)

(** The four spellings of the codec name [vp9]. *)
Definition vp9_spellings : list string := ["vp9"; "vP9"; "Vp9"; "VP9"].

(** The values of the [mode] select box. *)
Definition recognized_modes : list string :=
  ["average_bitrate"; "constant_quality"; "constrained_quality";
   "constant_bitrate"; "lossless"].

(** The settings [settings] switched to the [average_bitrate] mode with the
    bitrate [b]. *)
Definition average_bitrate_with (settings : Settings) (b : string) : Settings :=
  {| mode := "average_bitrate";
     crf := crf settings;
     bitrate := b;
     deadline := deadline settings;
     cpu_used := cpu_used settings |}.

(** An argument list is a sequence of option/value pairs; [option_names]
    keeps the options (the elements at even positions). *)
Fixpoint option_names (args : list string) : list string :=
  match args with
  | name :: _ :: rest => name :: option_names rest
  | rest => rest
  end.

(** A path has an extension when [os.path.splitext] finds one. *)
Definition has_extension (p : string) : Prop := snd (splitext p) <> "".

(** The boolean the loop of [splitext] computes: whether it leaves through
    its [return], that is, whether a character other than a dot stands
    between [filenameIndex] and [dotIndex]. *)
Fixpoint loop_found (fuel : nat) (p : string) (dotIndex filenameIndex : Z) : bool :=
  match fuel with
  | O => false
  | S fuel' =>
      if (filenameIndex <? dotIndex)%Z then
        if negb (String.eqb (take_str 1 (drop_str (Z.to_nat filenameIndex) p))
                            (String extsep ""))
        then true
        else loop_found fuel' p dotIndex (filenameIndex + 1)%Z
      else false
  end.
(** ** The settings form *)

(** The input of one entry of [Settings.form_settings]: a select box with
    its (value, label) options, a range with its bounds, or, when no
    [input_type] is given, a plain text field. *)
Inductive form_input : Type :=
  | Select (select_options : list (string * string))
  | Range (range_min range_max : Z)
  | Text.

Record form_field : Type := {
  label : string;
  input : form_input
}.

(** [Settings.form_settings], in the order of the source. *)
Definition form_settings : list (string * form_field) :=
  [ ("mode",
     {| label := "Encoding Mode";
        input := Select [ ("average_bitrate", "Variable Bitrate (VBR)");
                          ("constant_quality", "Constant Quantizer (Q)");
                          ("constrained_quality", "Constrained Quality (CQ)");
                          ("constant_bitrate", "Constant Bitrate (CBR)");
                          ("lossless", "Lossless VP9") ] |});
    ("crf",
     {| label := "Constant Rate Factor (CRF)"; input := Range 0 63 |});
    ("bitrate",
     {| label := "Bitrate"; input := Text |});
    ("deadline",
     {| label := "Deadline / Quality";
        input := Select [ ("good", "good"); ("best", "best");
                          ("realtime", "realtime") ] |});
    ("cpu-used",
     {| label := "CPU Utilization / Speed"; input := Range 0 5 |}) ].

(** The values a select box of the form offers for the setting [key]; none
    when the entry is missing or is not a select box. *)
Definition select_values (key : string) : list string :=
  match List.find (fun entry => String.eqb (fst entry) key) form_settings with
  | Some (_, {| input := Select options |}) => fst <$> options
  | _ => []
  end.

(** The argument list the worker hook has assembled before it derives the
    output path. *)
Definition worker_args (mapper : FfmpegStreamMapper) (file_in : value)
  : list value :=
  ([VStr "-i"; file_in; VStr "-hide_banner"; VStr "-loglevel"; VStr "info"]
   ++ (VStr <$> get_stream_mapping mapper)
   ++ (VStr <$> get_stream_encoding mapper))%list.

(** A value that is a string. *)
Definition is_str (v : value) : bool :=
  match v with
  | VStr _ => true
  | _ => false
  end.

(** ** Sample inputs *)

Module Sample.

Definition h264_stream : dict :=
  {[ "index" := VInt 0; "codec_name" := VStr "h264";
     "stream_type" := VStr "video" ]}.

Definition vp9_stream : dict :=
  {[ "index" := VInt 0; "codec_name" := VStr "VP9";
     "stream_type" := VStr "video" ]}.

Definition aac_stream : dict :=
  {[ "index" := VInt 1; "codec_name" := VStr "aac";
     "stream_type" := VStr "audio" ]}.

Definition settings : Settings :=
  {| mode := "constant_quality"; crf := "30"; bitrate := "2M";
     deadline := "good"; cpu_used := "2" |}.

(** The mapper of a file with an H.264 video stream and an AAC audio stream. *)
Definition h264_file : FfmpegStreamMapper :=
  Engine.probe settings [h264_stream; aac_stream].

(** The mapper of a file whose video stream is already VP9. *)
Definition vp9_file : FfmpegStreamMapper :=
  Engine.probe settings [vp9_stream; aac_stream].

(** The [data] object the host hands to the worker hook. *)
Definition worker_data (file_in file_out : string) : dict :=
  {[ "exec_ffmpeg" := VBool false;
     "ffmpeg_args" := VList [VStr "-i"; VStr file_in; VStr file_out];
     "file_in" := VStr file_in;
     "file_out" := VStr file_out;
     "original_file_path" := VStr file_in ]}.

(** The [data] object the host hands to the file test. *)
Definition test_data (path : string) (pending : bool) : dict :=
  {[ "path" := VStr path;
     "issues" := VList [];
     "add_file_to_pending_tasks" := VBool pending ]}.

End Sample.

Example lower_mixed : lower "Vp9" = "vp9".
Proof. reflexivity. Qed.

Example splitext_mkv : splitext "/library/movie.mkv" = ("/library/movie", ".mkv").
Proof. reflexivity. Qed.

Example splitext_hidden : splitext "/library/.hidden" = ("/library/.hidden", "").
Proof. reflexivity. Qed.

Example splitext_dotted_dir : splitext "/lib.d/movie" = ("/lib.d/movie", "").
Proof. reflexivity. Qed.

(** ** Case-insensitive codec names *)

Local Ltac by_ascii_cases c :=
  destruct c as [[] [] [] [] [] [] [] []]; vm_compute;
  split; intros H; try discriminate H;
  try (destruct H as [H | H]; discriminate H); auto.

Lemma lower_ascii_v (c : ascii) :
  lower_ascii c = "v"%char <-> c = "v"%char \/ c = "V"%char.
Proof. by_ascii_cases c. Qed.

Lemma lower_ascii_p (c : ascii) :
  lower_ascii c = "p"%char <-> c = "p"%char \/ c = "P"%char.
Proof. by_ascii_cases c. Qed.

Lemma lower_ascii_9 (c : ascii) :
  lower_ascii c = "9"%char <-> c = "9"%char \/ c = "9"%char.
Proof. by_ascii_cases c. Qed.

Lemma lower_vp9 (name : string) :
  lower name = "vp9" <-> name ∈ vp9_spellings.
Proof.
  unfold vp9_spellings. split.
  - destruct name as [| a [| b [| c [| d t]]]]; simpl; intros H;
      try discriminate H.
    injection H as Ha Hb Hc.
    apply lower_ascii_v in Ha. apply lower_ascii_p in Hb.
    apply lower_ascii_9 in Hc.
    destruct Ha as [-> | ->], Hb as [-> | ->], Hc as [-> | ->]; set_solver.
  - rewrite !elem_of_cons, elem_of_nil.
    intros [-> | [-> | [-> | [-> | []]]]]; reflexivity.
Qed.

(** ** The codec test *)

Lemma test_stream_needs_processing_str (stream : dict) (name : string) :
  get stream "codec_name" = VStr name ->
  StreamMapper.test_stream_needs_processing stream
  = Ok (negb (bool_decide (name ∈ vp9_spellings))).
Proof.
  intros H. unfold StreamMapper.test_stream_needs_processing.
  rewrite H. simpl.
  destruct (decide (name ∈ vp9_spellings)) as [Hin | Hout].
  - rewrite (bool_decide_eq_true_2 _ Hin).
    apply lower_vp9 in Hin. rewrite Hin. reflexivity.
  - rewrite (bool_decide_eq_false_2 _ Hout).
    rewrite bool_decide_eq_false_2; [reflexivity |].
    intros Hl. apply Hout, lower_vp9.
    apply list_elem_of_singleton in Hl. exact Hl.
Qed.


Lemma needsProcessing_str (stream : dict) (name : string) :
  get stream "codec_name" = VStr name ->
  Engine.needsProcessing stream
  = Ok (Engine.is_mapper_type stream && negb (bool_decide (name ∈ vp9_spellings))).
Proof.
  intros H. unfold Engine.needsProcessing.
  destruct (Engine.is_mapper_type stream); [| reflexivity].
  now apply test_stream_needs_processing_str.
Qed.

Lemma selectStreams_all_vp9 (streams : list dict) :
  (forall stream, stream ∈ streams -> Engine.is_mapper_type stream = true ->
     exists name, get stream "codec_name" = VStr name /\ name ∈ vp9_spellings) ->
  Engine.selectStreams streams = Ok [].
Proof.
  induction streams as [| stream rest IH]; intros Hall; [reflexivity |].
  simpl. rewrite IH.
  - assert (Engine.needsProcessing stream = Ok false) as ->; [| reflexivity].
    destruct (Engine.is_mapper_type stream) eqn:Hty.
    + destruct (Hall stream) as (name & Hname & Hin); [left | exact Hty |].
      rewrite (needsProcessing_str _ _ Hname), Hty.
      now rewrite (bool_decide_eq_true_2 _ Hin).
    + unfold Engine.needsProcessing. now rewrite Hty.
  - intros s Hs. apply Hall. now right.
Qed.

(** ** The worker hook when nothing is to be converted *)

Lemma on_worker_process_idle (mapper : FfmpegStreamMapper) (data : dict) :
  streams_need_processing mapper = Ok false ->
  Hook.on_worker_process mapper data
  = (<["exec_ffmpeg" := VBool false]> data,
     match data !! "ffmpeg_args" with
     | Some _ => Ok tt
     | None => Raise KeyError
     end).
Proof.
  intros H. unfold Hook.on_worker_process, Hook.bind, Hook.lift,
    Hook.data_set, Hook.data_get, Hook.data_item, Hook.ret.
  rewrite H. rewrite lookup_insert_ne by done.
  now destruct (data !! "ffmpeg_args").
Qed.

(** C1: a stream whose codec name is [vp9], in any letter case, is never
    reported as needing processing (with a string codec name the test
    answers false exactly for the four spellings of [vp9], and the engine
    selects a stream iff it is a video stream whose codec name is none of
    them); hence for a file whose video streams are all VP9 the selection is
    empty, the mapper reports that nothing needs processing, and the worker
    hook leaves [exec_ffmpeg] false. *)
Theorem vp9_streams_are_skipped :
  (forall (stream : dict) (name : string),
     get stream "codec_name" = VStr name ->
     (name ∈ vp9_spellings ->
      StreamMapper.test_stream_needs_processing stream = Ok false) /\
     (StreamMapper.test_stream_needs_processing stream = Ok false <->
      name ∈ vp9_spellings) /\
     (Engine.needsProcessing stream = Ok true <->
      Engine.is_mapper_type stream = true /\ name ∉ vp9_spellings)) /\
  (forall (settings : Settings) (streams : list dict) (data : dict),
     (forall stream, stream ∈ streams -> Engine.is_mapper_type stream = true ->
        exists name, get stream "codec_name" = VStr name /\ name ∈ vp9_spellings) ->
     Engine.planStreams streams = Ok [] /\
     streams_need_processing (Engine.probe settings streams) = Ok false /\
     get_stream_mapping (Engine.probe settings streams) = [] /\
     get_stream_encoding (Engine.probe settings streams) = [] /\
     fst (Hook.on_worker_process (Engine.probe settings streams) data)
     = <["exec_ffmpeg" := VBool false]> data /\
     get (fst (Hook.on_worker_process (Engine.probe settings streams) data))
       "exec_ffmpeg" = VBool false).
Proof.
  split.
  - intros stream name Hname.
    rewrite (needsProcessing_str _ _ Hname),
      (test_stream_needs_processing_str _ _ Hname).
    destruct (decide (name ∈ vp9_spellings)) as [Hin | Hout].
    + rewrite (bool_decide_eq_true_2 _ Hin). simpl.
      rewrite andb_false_r.
      split; [reflexivity |]. split; [tauto |].
      split; [discriminate | tauto].
    + rewrite (bool_decide_eq_false_2 _ Hout). simpl.
      rewrite andb_true_r.
      split; [tauto |]. split.
      * split; [discriminate | tauto].
      * split; [intros [= ->]; tauto | intros [-> _]; reflexivity].
  - intros settings streams data Hall.
    assert (Engine.planStreams streams = Ok []) as Hplan.
    { unfold Engine.planStreams.
      now rewrite (selectStreams_all_vp9 _ Hall). }
    assert (streams_need_processing (Engine.probe settings streams) = Ok false)
      as Hneed.
    { simpl. now rewrite Hplan. }
    rewrite (on_worker_process_idle _ data Hneed). simpl.
    unfold Engine.decided_or_nil. rewrite Hplan. simpl.
    repeat split; auto.
    unfold get. now rewrite lookup_insert_eq.
Qed.

Lemma vp9_streams_are_skipped_witness :
  StreamMapper.test_stream_needs_processing
    {[ "index" := VInt 0; "codec_name" := VStr "VP9";
       "stream_type" := VStr "video" ]} = Ok false /\
  get (fst (Hook.on_worker_process
         (Engine.probe default_settings
            [ {[ "index" := VInt 0; "codec_name" := VStr "Vp9";
                 "stream_type" := VStr "video" ]};
              {[ "index" := VInt 1; "codec_name" := VStr "aac";
                 "stream_type" := VStr "audio" ]} ])
         {[ "file_in" := VStr "/library/movie.mkv";
            "exec_ffmpeg" := VBool true ]}))
    "exec_ffmpeg" = VBool false.
Proof.
  split.
  - apply (proj1 vp9_streams_are_skipped _ "VP9"); [reflexivity |].
    unfold vp9_spellings. set_solver.
  - apply (proj2 vp9_streams_are_skipped).
    intros stream Hin Hty.
    apply elem_of_cons in Hin as [-> | Hin].
    + exists "Vp9". split; [reflexivity |]. unfold vp9_spellings. set_solver.
    + apply list_elem_of_singleton in Hin as ->. discriminate Hty.
Defined.

(** Without a string under [codec_name] the codec test raises: [get] yields
    [None] for an absent key as for a null value, and [None] has no
    [lower]. *)
Lemma test_without_codec_name (stream : dict) :
  stream !! "codec_name" = None \/ stream !! "codec_name" = Some VNone ->
  StreamMapper.test_stream_needs_processing stream = Raise AttributeError.
Proof.
  intros [H | H]; unfold StreamMapper.test_stream_needs_processing, get;
    now rewrite H.
Qed.

(** C2: with no [codec_name] key, or with a null codec name, the codec test
    does not answer "needs processing": calling [lower] on [None] raises
    [AttributeError], and the error reaches the engine's decision. *)
Theorem missing_codec_name_raises :
  StreamMapper.test_stream_needs_processing
    {[ "index" := VInt 0; "stream_type" := VStr "video" ]}
  = Raise AttributeError /\
  StreamMapper.test_stream_needs_processing
    {[ "index" := VInt 0; "codec_name" := VNone; "stream_type" := VStr "video" ]}
  = Raise AttributeError /\
  Engine.needsProcessing
    {[ "index" := VInt 0; "stream_type" := VStr "video" ]}
  = Raise AttributeError.
Proof.
  split; [| split].
  - apply test_without_codec_name. left. reflexivity.
  - apply test_without_codec_name. right. reflexivity.
  - reflexivity.
Qed.

(** ** Encoder arguments *)

Local Ltac by_mode settings :=
  unfold StreamMapper.custom_stream_mapping; simpl;
  repeat match goal with
         | |- context [String.eqb (mode settings) ?m] =>
             destruct (String.eqb_spec (mode settings) m)
         end.

(** C3: for stream 0 in constant-quality mode with crf 30, deadline good and
    cpu-used 2, the encoder arguments and the stream selector are exactly
    the lists of the end-to-end scenario; the configured bitrate plays no
    part. *)
Theorem constant_quality_scenario (configured_bitrate : string) :
  StreamMapper.custom_stream_mapping
    {| mode := "constant_quality"; crf := "30"; bitrate := configured_bitrate;
       deadline := "good"; cpu_used := "2" |}
    {[ "index" := VInt 0; "codec_name" := VStr "h264";
       "stream_type" := VStr "video" ]}
    0
  = {| stream_mapping := ["-map"; "0:v:0"];
       stream_encoding :=
         ["-c:v:0"; "libvpx-vp9"; "-crf"; "30"; "-b:v:0"; "0";
          "-threads"; "8"; "-row-mt"; "1"; "-deadline"; "good";
          "-cpu-used"; "2"] |}.
Proof. reflexivity. Qed.

(** C4, as the code has it: with a mode that is none of the five recognised
    ones, the encoder arguments are the codec selection followed by the
    plain pair [-b:v 2M], and nothing else: no thread, row-mt, deadline or
    cpu-used argument, and no use of the configured bitrate. *)
Theorem fallback_mode_args (settings : Settings) (stream : dict) (stream_id : Z) :
  mode settings ∉ recognized_modes ->
  StreamMapper.custom_stream_mapping settings stream stream_id
  = {| stream_mapping := ["-map"; "0:v:" +:+ format_int stream_id];
       stream_encoding :=
         ["-c:v:" +:+ format_int stream_id; "libvpx-vp9"; "-b:v"; "2M"] |}.
Proof.
  intros Hmode. unfold recognized_modes in Hmode.
  by_mode settings; try reflexivity;
    exfalso; apply Hmode; set_solver.
Qed.

Lemma fallback_mode_args_witness :
  StreamMapper.custom_stream_mapping
    {| mode := "two_pass"; crf := "31"; bitrate := "4M"; deadline := "best";
       cpu_used := "1" |} ∅ 3
  = {| stream_mapping := ["-map"; "0:v:3"];
       stream_encoding := ["-c:v:3"; "libvpx-vp9"; "-b:v"; "2M"] |}.
Proof.
  apply (fallback_mode_args
           {| mode := "two_pass"; crf := "31"; bitrate := "4M";
              deadline := "best"; cpu_used := "1" |} ∅ 3).
  unfold recognized_modes. simpl.
  rewrite !elem_of_cons, elem_of_nil.
  intros [H | [H | [H | [H | [H | []]]]]]; discriminate H.
Defined.

(** C4, as stated, fails: for the unrecognised mode [two_pass] the encoder
    arguments are not those of the [average_bitrate] mode for any
    substituted bitrate. *)
Lemma fallback_is_not_average_bitrate_shape :
  ("two_pass" ∉ recognized_modes) /\
  ~ (exists fallback_bitrate : string,
      stream_encoding
        (StreamMapper.custom_stream_mapping
           {| mode := "two_pass"; crf := "31"; bitrate := "4M";
              deadline := "best"; cpu_used := "1" |} ∅ 0)
      = stream_encoding
          (StreamMapper.custom_stream_mapping
             (average_bitrate_with
                {| mode := "two_pass"; crf := "31"; bitrate := "4M";
                   deadline := "best"; cpu_used := "1" |} fallback_bitrate)
             ∅ 0)).
Proof.
  split.
  - unfold recognized_modes. rewrite !elem_of_cons, elem_of_nil.
    intros [H | [H | [H | [H | [H | []]]]]]; discriminate H.
  - intros [b H]. vm_compute in H. discriminate H.
Qed.

(** C5: in each of the five modes the encoder arguments are exactly the
    parameter set of that mode: the target bitrate for [average_bitrate];
    crf and a zero bitrate for [constant_quality]; crf and the configured
    bitrate for [constrained_quality]; minrate, maxrate and target bitrate
    all equal to the configured bitrate for [constant_bitrate]; the lossless
    flag and neither crf nor any rate option for [lossless]; always followed
    by the fixed thread and row-mt arguments and by the configured deadline
    and cpu-used values, unchanged. *)
Theorem mode_coverage (c b d u : string) (stream : dict) (stream_id : Z) :
  let i := format_int stream_id in
  let tail := ["-threads"; "8"; "-row-mt"; "1"; "-deadline"; d; "-cpu-used"; u] in
  let encoding m :=
    stream_encoding
      (StreamMapper.custom_stream_mapping
         {| mode := m; crf := c; bitrate := b; deadline := d; cpu_used := u |}
         stream stream_id) in
  encoding "average_bitrate"
  = (["-c:v:" +:+ i; "libvpx-vp9"; "-b:v:" +:+ i; b] ++ tail)%list /\
  encoding "constant_quality"
  = (["-c:v:" +:+ i; "libvpx-vp9"; "-crf"; c; "-b:v:" +:+ i; "0"] ++ tail)%list /\
  encoding "constrained_quality"
  = (["-c:v:" +:+ i; "libvpx-vp9"; "-crf"; c; "-b:v:" +:+ i; b] ++ tail)%list /\
  encoding "constant_bitrate"
  = (["-c:v:" +:+ i; "libvpx-vp9"; "-minrate"; b; "-maxrate"; b;
     "-b:v:" +:+ i; b] ++ tail)%list /\
  encoding "lossless"
  = (["-c:v:" +:+ i; "libvpx-vp9"; "-lossless"; "1"] ++ tail)%list /\
  option_names (encoding "lossless")
  = ["-c:v:" +:+ i; "-lossless"; "-threads"; "-row-mt"; "-deadline"; "-cpu-used"].
Proof. repeat split. Qed.

(** C6: whatever the mode, recognised or not, and whatever the stream
    index, the encoder arguments begin with the codec selection
    [-c:v:<stream_id> libvpx-vp9]; and the arguments are a function of the
    settings and the stream index alone: the stream's own metadata does not
    enter them. *)
Theorem encoder_args_begin_with_codec_pair
    (settings : Settings) (stream : dict) (stream_id : Z) :
  (exists rest : list string,
     stream_encoding (StreamMapper.custom_stream_mapping settings stream stream_id)
     = ("-c:v:" +:+ format_int stream_id) :: "libvpx-vp9" :: rest) /\
  take 2 (stream_encoding
            (StreamMapper.custom_stream_mapping settings stream stream_id))
  = ["-c:v:" +:+ format_int stream_id; "libvpx-vp9"] /\
  (forall other : dict,
     StreamMapper.custom_stream_mapping settings other stream_id
     = StreamMapper.custom_stream_mapping settings stream stream_id).
Proof.
  split; [| split; [| reflexivity]].
  - by_mode settings; eexists; reflexivity.
  - by_mode settings; reflexivity.
Qed.

(** ** Slices, [rfind] and [splitext] *)

Lemma app_nil_str (b : string) : "" +:+ b = b.
Proof. reflexivity. Qed.

Lemma app_cons_str (c : ascii) (a b : string) :
  String c a +:+ b = String c (a +:+ b).
Proof. reflexivity. Qed.

Lemma app_nil_r_str (a : string) : a +:+ "" = a.
Proof.
  induction a as [| c a IH]; [reflexivity |].
  now rewrite app_cons_str, IH.
Qed.

Local Ltac simpl_str := simpl; rewrite ?app_cons_str, ?app_nil_str; simpl.

Lemma take_drop_str (n : nat) (p : string) : take_str n p +:+ drop_str n p = p.
Proof.
  revert p. induction n as [| n IH]; intros [| c t]; simpl_str;
    try reflexivity.
  now rewrite IH.
Qed.

Lemma length_app_str (a b : string) :
  String.length (a +:+ b) = (String.length a + String.length b)%nat.
Proof. induction a as [| c a IH]; simpl_str; [reflexivity | now rewrite IH]. Qed.

Lemma length_take_str (n : nat) (p : string) :
  (n <= String.length p)%nat -> String.length (take_str n p) = n.
Proof.
  revert p. induction n as [| n IH]; intros [| c t]; simpl; intros H;
    try reflexivity; try lia.
  rewrite IH; [reflexivity | lia].
Qed.

Lemma take_str_app (a b : string) : take_str (String.length a) (a +:+ b) = a.
Proof.
  induction a as [| c a IH]; simpl_str; [now destruct b | now rewrite IH].
Qed.

Lemma drop_str_app (a b : string) : drop_str (String.length a) (a +:+ b) = b.
Proof. induction a as [| c a IH]; simpl_str; [now destruct b | exact IH]. Qed.

Lemma char_at_app (n : nat) (a b : string) :
  (n < String.length a)%nat ->
  take_str 1 (drop_str n (a +:+ b)) = take_str 1 (drop_str n a).
Proof.
  revert a. induction n as [| n IH]; intros [| c a]; simpl_str; intros H;
    try lia; try reflexivity.
  apply IH. lia.
Qed.

Lemma rfind_bounds (c : ascii) (p : string) :
  -1 <= rfind c p < Z.of_nat (String.length p).
Proof.
  induction p as [| x t IH]; simpl; [lia |].
  destruct (Z.leb_spec 0 (rfind c t)); [lia |].
  destruct (Ascii.eqb x c); lia.
Qed.

Lemma rfind_app (c : ascii) (a b : string) :
  rfind c (a +:+ b)
  = if 0 <=? rfind c b then Z.of_nat (String.length a) + rfind c b
    else rfind c a.
Proof.
  induction a as [| x a IH]; simpl_str.
  - pose proof (rfind_bounds c b). destruct (Z.leb_spec 0 (rfind c b)); lia.
  - rewrite IH. pose proof (rfind_bounds c a).
    destruct (Z.leb_spec 0 (rfind c b)).
    + destruct (Z.leb_spec 0 (Z.of_nat (String.length a) + rfind c b)); lia.
    + reflexivity.
Qed.

Lemma rfind_drop_above (c : ascii) (p : string) (d : nat) :
  rfind c p < Z.of_nat d -> (d <= String.length p)%nat ->
  rfind c (drop_str d p) = -1.
Proof.
  intros Hlt Hlen.
  pose proof (rfind_app c (take_str d p) (drop_str d p)) as Happ.
  rewrite take_drop_str, (length_take_str _ _ Hlen) in Happ.
  pose proof (rfind_bounds c (drop_str d p)).
  destruct (Z.leb_spec 0 (rfind c (drop_str d p))); lia.
Qed.

Lemma rfind_take_above (c : ascii) (p : string) (d : nat) :
  rfind c p < Z.of_nat d -> (d <= String.length p)%nat ->
  rfind c (take_str d p) = rfind c p.
Proof.
  intros Hlt Hlen.
  pose proof (rfind_app c (take_str d p) (drop_str d p)) as Happ.
  rewrite take_drop_str, (rfind_drop_above _ _ _ Hlt Hlen) in Happ.
  simpl in Happ. now symmetry.
Qed.

Lemma rfind_drop_self (c : ascii) (p : string) :
  0 <= rfind c p -> rfind c (drop_str (Z.to_nat (rfind c p)) p) = 0.
Proof.
  intros Hpos. pose proof (rfind_bounds c p) as Hb.
  set (d := Z.to_nat (rfind c p)).
  assert (d <= String.length p)%nat as Hlen by lia.
  pose proof (rfind_app c (take_str d p) (drop_str d p)) as Happ.
  rewrite take_drop_str, (length_take_str _ _ Hlen) in Happ.
  pose proof (rfind_bounds c (take_str d p)) as Ht.
  rewrite (length_take_str _ _ Hlen) in Ht.
  destruct (Z.leb_spec 0 (rfind c (drop_str d p))); lia.
Qed.

Lemma splitext_loop_found (fuel : nat) (p : string) (d i : Z) :
  splitext_loop fuel p d i
  = if loop_found fuel p d i
    then (take_str (Z.to_nat d) p, drop_str (Z.to_nat d) p)
    else (p, "").
Proof.
  revert i. induction fuel as [| fuel IH]; intros i;
    cbn [splitext_loop loop_found]; [reflexivity |].
  destruct (i <? d); [| reflexivity].
  destruct (negb _); [reflexivity | apply IH].
Qed.

Lemma loop_found_prefix (fuel : nat) (p q : string) (d i : Z) :
  0 <= i ->
  (forall k : nat, (k < Z.to_nat d)%nat ->
     take_str 1 (drop_str k p) = take_str 1 (drop_str k q)) ->
  loop_found fuel p d i = loop_found fuel q d i.
Proof.
  intros Hi Hpre. revert i Hi.
  induction fuel as [| fuel IH]; intros i Hi; cbn [loop_found];
    [reflexivity |].
  destruct (Z.ltb_spec i d); [| reflexivity].
  rewrite (Hpre (Z.to_nat i)) by lia.
  destruct (negb _); [reflexivity | apply IH; lia].
Qed.

(** The two halves [splitext] returns always make up the path. *)
Lemma splitext_join (p : string) : fst (splitext p) +:+ snd (splitext p) = p.
Proof.
  unfold splitext. destruct (rfind sep p <? rfind extsep p).
  - rewrite splitext_loop_found. destruct (loop_found _ _ _ _); simpl.
    + apply take_drop_str.
    + apply app_nil_r_str.
  - apply app_nil_r_str.
Qed.

(** What [splitext] has done when it reports an extension. *)
Lemma splitext_extension (p : string) :
  has_extension p ->
  rfind sep p < rfind extsep p /\
  loop_found (Z.to_nat (rfind extsep p - (rfind sep p + 1))) p
    (rfind extsep p) (rfind sep p + 1) = true /\
  splitext p = (take_str (Z.to_nat (rfind extsep p)) p,
                drop_str (Z.to_nat (rfind extsep p)) p).
Proof.
  unfold has_extension, splitext. intros Hext.
  destruct (Z.ltb_spec (rfind sep p) (rfind extsep p)) as [Hlt | Hge];
    [| now simpl in Hext].
  rewrite splitext_loop_found in *.
  destruct (loop_found _ _ _ _); [auto | now simpl in Hext].
Qed.

(** An extension starts with the last dot of the path and holds no
    separator. *)
Lemma extension_shape (p : string) :
  has_extension p ->
  rfind extsep (snd (splitext p)) = 0 /\ rfind sep (snd (splitext p)) = -1.
Proof.
  intros Hext. destruct (splitext_extension p Hext) as (Hlt & _ & ->). simpl.
  pose proof (rfind_bounds sep p). pose proof (rfind_bounds extsep p).
  split.
  - apply rfind_drop_self. lia.
  - apply rfind_drop_above; lia.
Qed.

(** Putting the extension of one path on the root of another, when both
    have one, gives a path that [splitext] takes apart again into exactly
    that root and that extension. *)
Lemma splitext_replace_extension (fin fout : string) :
  has_extension fin -> has_extension fout ->
  splitext (fst (splitext fout) +:+ snd (splitext fin))
  = (fst (splitext fout), snd (splitext fin)).
Proof.
  intros Hin Hout.
  destruct (extension_shape fin Hin) as [Hdot Hsep].
  destruct (splitext_extension fout Hout) as (Hlt & Hfound & Hsplit).
  rewrite Hsplit. simpl.
  set (ext := snd (splitext fin)) in *.
  set (d := Z.to_nat (rfind extsep fout)) in *.
  set (root := take_str d fout) in *.
  pose proof (rfind_bounds sep fout) as Hbs.
  pose proof (rfind_bounds extsep fout) as Hbd.
  assert (d <= String.length fout)%nat as Hlen by lia.
  assert (String.length root = d) as Hroot by now apply length_take_str.
  assert (rfind extsep (root +:+ ext) = rfind extsep fout) as Hd'.
  { rewrite rfind_app, Hdot, Hroot. simpl. lia. }
  assert (rfind sep (root +:+ ext) = rfind sep fout) as Hs'.
  { rewrite rfind_app, Hsep. simpl. apply rfind_take_above; lia. }
  unfold splitext. rewrite Hd', Hs'.
  destruct (Z.ltb_spec (rfind sep fout) (rfind extsep fout)); [| lia].
  rewrite splitext_loop_found.
  rewrite (loop_found_prefix _ _ fout), Hfound.
  - fold d. rewrite <- Hroot at 1 2.
    now rewrite take_str_app, drop_str_app.
  - lia.
  - intros k Hk. fold d in Hk.
    rewrite char_at_app by lia.
    transitivity (take_str 1 (drop_str k (root +:+ drop_str d fout))).
    + symmetry. apply char_at_app. lia.
    + unfold root. now rewrite take_drop_str.
Qed.

(** ** The worker hook when streams are to be converted *)

(** The argument list the worker hook assembles. *)
Lemma on_worker_process_plan (mapper : FfmpegStreamMapper) (data : dict)
    (fin fout : string) :
  streams_need_processing mapper = Ok true ->
  data !! "file_in" = Some (VStr fin) ->
  data !! "file_out" = Some (VStr fout) ->
  Hook.on_worker_process mapper data
  = (<["ffmpeg_args" :=
         VList ([VStr "-i"; VStr fin; VStr "-hide_banner"; VStr "-loglevel";
                 VStr "info"]
                ++ (VStr <$> get_stream_mapping mapper)
                ++ (VStr <$> get_stream_encoding mapper)
                ++ [VStr "-y";
                    VStr (fst (splitext fout) +:+ snd (splitext fin))])%list]>
       (<["file_out" := VStr (fst (splitext fout) +:+ snd (splitext fin))]>
          (<["exec_ffmpeg" := VBool true]> data)),
     Ok tt).
Proof.
  intros Hneed Hin Hout.
  unfold Hook.on_worker_process, Hook.data_iadd, Hook.bind, Hook.lift,
    Hook.data_set, Hook.data_get, Hook.data_item, Hook.ret, get.
  rewrite Hneed.
  repeat (rewrite ?lookup_insert_eq; rewrite ?lookup_insert_ne by done; rewrite ?Hin, ?Hout; 
          cbn [value_splitext fst snd]).
  f_equal. apply map_eq. intros k.
  rewrite !lookup_insert.
  repeat case_decide; subst; try done.
  now rewrite <- !app_assoc.
Qed.


Lemma no_extension (p : string) :
  ~ has_extension p -> splitext p = (p, "").
Proof.
  unfold has_extension. intros Hno.
  pose proof (splitext_join p) as Hjoin.
  destruct (splitext p) as [root ext]. simpl in *.
  destruct ext as [| c ext]; [| exfalso; apply Hno; discriminate].
  now rewrite app_nil_r_str in Hjoin; subst.
Qed.

(** C7: when streams are to be converted and both paths have an extension,
    the hook returns normally and the output path it stores in [file_out]
    (and passes last to ffmpeg) is the root of the host's output target
    followed by the extension of the input file; taking that path apart
    gives back exactly this root and this extension. *)
Theorem output_keeps_input_container (mapper : FfmpegStreamMapper)
    (data : dict) (fin fout : string) :
  streams_need_processing mapper = Ok true ->
  data !! "file_in" = Some (VStr fin) ->
  data !! "file_out" = Some (VStr fout) ->
  has_extension fin ->
  has_extension fout ->
  let result := Hook.on_worker_process mapper data in
  let out := fst (splitext fout) +:+ snd (splitext fin) in
  snd result = Ok tt /\
  get (fst result) "exec_ffmpeg" = VBool true /\
  get (fst result) "file_out" = VStr out /\
  splitext out = (fst (splitext fout), snd (splitext fin)) /\
  exists args : list value,
    get (fst result) "ffmpeg_args" = VList args /\ last args = Some (VStr out).
Proof.
  intros Hneed Hin Hout Hext_in Hext_out result out. subst result.
  rewrite (on_worker_process_plan _ _ _ _ Hneed Hin Hout). fold out.
  cbn [fst snd]. unfold get.
  rewrite lookup_insert_eq.
  rewrite !(lookup_insert_ne _ "ffmpeg_args") by done.
  rewrite lookup_insert_eq.
  rewrite (lookup_insert_ne _ "file_out") by done.
  rewrite lookup_insert_eq.
  split; [reflexivity |]. split; [reflexivity |]. split; [reflexivity |].
  split; [now apply splitext_replace_extension |].
  eexists. split; [reflexivity |].
  rewrite !app_assoc. rewrite last_app. reflexivity.
Qed.

(** C8: when no stream needs converting, the hook only resets
    [exec_ffmpeg] to false: [ffmpeg_args] and [file_out] keep the values the
    host supplied, every other key too, and the hook returns normally as
    soon as the host supplied an [ffmpeg_args] entry. *)
Theorem no_streams_no_transcode (mapper : FfmpegStreamMapper) (data : dict) :
  streams_need_processing mapper = Ok false ->
  let result := Hook.on_worker_process mapper data in
  fst result = <["exec_ffmpeg" := VBool false]> data /\
  get (fst result) "exec_ffmpeg" = VBool false /\
  fst result !! "ffmpeg_args" = data !! "ffmpeg_args" /\
  fst result !! "file_out" = data !! "file_out" /\
  (is_Some (data !! "ffmpeg_args") -> snd result = Ok tt).
Proof.
  intros Hneed result. subst result.
  rewrite (on_worker_process_idle _ _ Hneed). cbn [fst snd]. unfold get.
  rewrite lookup_insert_eq, !lookup_insert_ne by done.
  repeat split. intros [args ->]. reflexivity.
Qed.

(** C9, as the code has it: the hook never inspects whether a path has an
    extension.  Whenever streams are to be converted it returns normally
    with [exec_ffmpeg] set and the output path made of the root of the
    output target and the extension of the input; an input without
    extension contributes the empty string, an output target without
    extension is kept whole. *)
Theorem plan_built_without_extension_check (mapper : FfmpegStreamMapper)
    (data : dict) (fin fout : string) :
  streams_need_processing mapper = Ok true ->
  data !! "file_in" = Some (VStr fin) ->
  data !! "file_out" = Some (VStr fout) ->
  let result := Hook.on_worker_process mapper data in
  snd result = Ok tt /\
  get (fst result) "exec_ffmpeg" = VBool true /\
  get (fst result) "file_out"
  = VStr (fst (splitext fout) +:+ snd (splitext fin)) /\
  (~ has_extension fin ->
   get (fst result) "file_out" = VStr (fst (splitext fout))) /\
  (~ has_extension fout ->
   get (fst result) "file_out" = VStr (fout +:+ snd (splitext fin))).
Proof.
  intros Hneed Hin Hout result. subst result.
  rewrite (on_worker_process_plan _ _ _ _ Hneed Hin Hout).
  cbn [fst snd]. unfold get.
  rewrite !(lookup_insert_ne _ "ffmpeg_args") by done.
  rewrite lookup_insert_eq.
  rewrite (lookup_insert_ne _ "file_out") by done.
  rewrite lookup_insert_eq.
  split; [reflexivity |]. split; [reflexivity |]. split; [reflexivity |].
  split; intros Hno; rewrite (no_extension _ Hno); cbn [fst snd];
    [now rewrite app_nil_r_str | reflexivity].
Qed.

(** C10: the file test leaves every key other than
    [add_file_to_pending_tasks] as the host supplied it; the flag itself is
    either set to true or left as supplied, never set to false: it is set
    exactly when the mapper reports streams to process. *)
Theorem file_test_only_sets_flag (mapper : FfmpegStreamMapper) (data : dict) :
  let result := Hook.on_library_management_file_test mapper data in
  (forall key : string, key <> Hook.flag_key ->
     fst result !! key = data !! key) /\
  (fst result !! Hook.flag_key = Some (VBool true) \/
   fst result !! Hook.flag_key = data !! Hook.flag_key) /\
  (streams_need_processing mapper = Ok true ->
   result = (<[Hook.flag_key := VBool true]> data, Ok tt)) /\
  (streams_need_processing mapper <> Ok true -> fst result = data).
Proof.
  intros result. subst result.
  unfold Hook.on_library_management_file_test, Hook.bind, Hook.lift,
    Hook.data_set, Hook.data_get, Hook.ret.
  destruct (streams_need_processing mapper) as [[] | e]; cbn [fst snd].
  - split; [intros key Hkey; now rewrite lookup_insert_ne |].
    split; [left; apply lookup_insert_eq |].
    split; [reflexivity | intros Hne; now contradiction Hne].
  - repeat split; auto. discriminate.
  - repeat split; auto. discriminate.
Qed.

(** ** Instances on the sample inputs *)

Lemma output_keeps_input_container_witness :
  streams_need_processing Sample.h264_file = Ok true /\
  has_extension "movie.mkv" /\
  has_extension "movie.mp4" /\
  get (fst (Hook.on_worker_process Sample.h264_file
              (Sample.worker_data "movie.mkv" "movie.mp4")))
    "file_out" = VStr "movie.mkv".
Proof.
  assert (has_extension "movie.mkv") as Hin by (vm_compute; discriminate).
  assert (has_extension "movie.mp4") as Hout by (vm_compute; discriminate).
  split; [reflexivity |]. split; [exact Hin |]. split; [exact Hout |].
  pose proof (output_keeps_input_container Sample.h264_file
                (Sample.worker_data "movie.mkv" "movie.mp4")
                "movie.mkv" "movie.mp4"
                eq_refl eq_refl eq_refl Hin Hout) as (_ & _ & H & _).
  exact H.
Defined.

Lemma no_streams_no_transcode_witness :
  streams_need_processing Sample.vp9_file = Ok false /\
  fst (Hook.on_worker_process Sample.vp9_file
         (Sample.worker_data "movie.mkv" "movie.mp4"))
  = <["exec_ffmpeg" := VBool false]> (Sample.worker_data "movie.mkv" "movie.mp4").
Proof.
  split; [reflexivity |].
  apply (no_streams_no_transcode Sample.vp9_file
           (Sample.worker_data "movie.mkv" "movie.mp4")).
  reflexivity.
Defined.

(** C9, as stated, fails: the input path [/library/movie] has no extension,
    yet the hook raises nothing, asks for ffmpeg to be run and names
    [/cache/movie] as the output. *)
Lemma extensionless_input_still_planned :
  ~ has_extension "/library/movie" /\
  streams_need_processing Sample.h264_file = Ok true /\
  ~ (exists e : exn,
       snd (Hook.on_worker_process Sample.h264_file
              (Sample.worker_data "/library/movie" "/cache/movie.mp4"))
       = Raise e) /\
  get (fst (Hook.on_worker_process Sample.h264_file
              (Sample.worker_data "/library/movie" "/cache/movie.mp4")))
    "exec_ffmpeg" = VBool true /\
  get (fst (Hook.on_worker_process Sample.h264_file
              (Sample.worker_data "/library/movie" "/cache/movie.mp4")))
    "file_out" = VStr "/cache/movie".
Proof.
  split; [intros H; apply H; reflexivity |].
  split; [reflexivity |].
  split; [intros [e He]; vm_compute in He; discriminate He |].
  split; vm_compute; reflexivity.
Qed.

Lemma plan_built_without_extension_check_witness :
  ~ has_extension "/library/movie" /\
  snd (Hook.on_worker_process Sample.h264_file
         (Sample.worker_data "/library/movie" "/cache/movie.mp4")) = Ok tt /\
  get (fst (Hook.on_worker_process Sample.h264_file
              (Sample.worker_data "/library/movie" "/cache/movie.mp4")))
    "file_out" = VStr "/cache/movie".
Proof.
  assert (~ has_extension "/library/movie") as Hno
    by (intros H; apply H; reflexivity).
  pose proof (plan_built_without_extension_check Sample.h264_file
                (Sample.worker_data "/library/movie" "/cache/movie.mp4")
                "/library/movie" "/cache/movie.mp4"
                eq_refl eq_refl eq_refl) as (Hret & _ & _ & Hroot & _).
  split; [exact Hno |]. split; [exact Hret | exact (Hroot Hno)].
Defined.

Lemma file_test_only_sets_flag_witness :
  fst (Hook.on_library_management_file_test Sample.vp9_file
         (Sample.test_data "/library/movie.mkv" false))
  = Sample.test_data "/library/movie.mkv" false /\
  fst (Hook.on_library_management_file_test Sample.h264_file
         (Sample.test_data "/library/movie.mkv" false)) !! "path"
  = Some (VStr "/library/movie.mkv").
Proof.
  split.
  - apply (file_test_only_sets_flag Sample.vp9_file
             (Sample.test_data "/library/movie.mkv" false)).
    discriminate.
  - refine (proj1 (file_test_only_sets_flag Sample.h264_file
                     (Sample.test_data "/library/movie.mkv" false))
              "path" _).
    discriminate.
Defined.

(** ** Every outcome of the worker hook *)

Lemma get_insert_eq (d : dict) (key : string) (v : value) :
  get (<[key := v]> d) key = v.
Proof. unfold get. now rewrite lookup_insert_eq. Qed.

Lemma get_insert_ne (d : dict) (key key' : string) (v : value) :
  key <> key' -> get (<[key := v]> d) key' = get d key'.
Proof. intros H. unfold get. now rewrite lookup_insert_ne. Qed.

(** The mapper's decision raised. *)
Lemma on_worker_process_raised (mapper : FfmpegStreamMapper) (data : dict)
    (e : exn) :
  streams_need_processing mapper = Raise e ->
  Hook.on_worker_process mapper data
  = (<["exec_ffmpeg" := VBool false]> data, Raise e).
Proof.
  intros H. unfold Hook.on_worker_process, Hook.bind, Hook.lift,
    Hook.data_set, Hook.data_get.
  now rewrite H.
Qed.

(** Streams are to be converted: the hook fails on the first path that is
    not a string, and otherwise completes the plan. *)
Lemma on_worker_process_busy (mapper : FfmpegStreamMapper) (data : dict) :
  streams_need_processing mapper = Ok true ->
  Hook.on_worker_process mapper data
  = match get data "file_in", get data "file_out" with
    | VStr fin, VStr fout =>
        (<["ffmpeg_args" :=
             VList (worker_args mapper (VStr fin)
                    ++ [VStr "-y";
                        VStr (fst (splitext fout) +:+ snd (splitext fin))])%list]>
           (<["file_out" := VStr (fst (splitext fout) +:+ snd (splitext fin))]>
              (<["exec_ffmpeg" := VBool true]> data)),
         Ok tt)
    | _, _ =>
        (<["ffmpeg_args" := VList (worker_args mapper (get data "file_in"))]>
           (<["exec_ffmpeg" := VBool true]> data),
         Raise TypeError)
    end.
Proof.
  intros Hneed.
  unfold Hook.on_worker_process, Hook.data_iadd, Hook.bind, Hook.lift,
    Hook.data_set, Hook.data_get, Hook.data_item, Hook.ret, worker_args.
  rewrite Hneed.
  repeat (rewrite ?lookup_insert_eq; rewrite ?lookup_insert_ne by done;
          rewrite ?get_insert_ne by done; cbn [fst snd]).
  assert (forall (l : list value) (d : dict),
            <["ffmpeg_args" := VList (([VStr "-i"; get data "file_in";
                 VStr "-hide_banner"; VStr "-loglevel"; VStr "info"]
                 ++ (VStr <$> get_stream_mapping mapper))
                 ++ (VStr <$> get_stream_encoding mapper))]>
              (<["ffmpeg_args" := VList l]> d)
            = <["ffmpeg_args" := VList ([VStr "-i"; get data "file_in";
                 VStr "-hide_banner"; VStr "-loglevel"; VStr "info"]
                 ++ (VStr <$> get_stream_mapping mapper)
                 ++ (VStr <$> get_stream_encoding mapper))]> d) as Hargs.
  { intros l d. rewrite insert_insert_eq. now rewrite <- app_assoc. }
  destruct (get data "file_in") as [| b | z | fin | l] eqn:Hin;
    cbn [value_splitext]; rewrite ?Hargs, ?insert_insert_eq;
    try (rewrite insert_insert_eq; reflexivity); try reflexivity.
  destruct (get data "file_out") as [| b | z | fout | l] eqn:Hout;
    cbn [value_splitext]; rewrite ?Hargs, ?insert_insert_eq;
    try (rewrite insert_insert_eq; reflexivity); try reflexivity.
  rewrite get_insert_eq. cbn [fst snd].
  rewrite lookup_insert_ne by done. rewrite lookup_insert_eq.
  rewrite lookup_insert_eq.
  f_equal. apply map_eq. intros k.
  rewrite !lookup_insert.
  repeat case_decide; subst; done.
Qed.

(** ** Further properties of the worker hook *)

(** X1: when streams are to be converted and both paths are strings, the
    hook returns normally and the argument list it leaves in [ffmpeg_args]
    is [-i <file_in> -hide_banner -loglevel info], then the stream
    selectors, then the encoder arguments, then [-y] and the derived output
    path. *)
Theorem worker_argument_list (mapper : FfmpegStreamMapper) (data : dict)
    (fin fout : string) :
  streams_need_processing mapper = Ok true ->
  get data "file_in" = VStr fin ->
  get data "file_out" = VStr fout ->
  snd (Hook.on_worker_process mapper data) = Ok tt /\
  get (fst (Hook.on_worker_process mapper data)) "ffmpeg_args"
  = VList ([VStr "-i"; VStr fin; VStr "-hide_banner"; VStr "-loglevel";
            VStr "info"]
           ++ (VStr <$> get_stream_mapping mapper)
           ++ (VStr <$> get_stream_encoding mapper)
           ++ [VStr "-y"; VStr (fst (splitext fout) +:+ snd (splitext fin))])%list.
Proof.
  intros Hneed Hin Hout.
  rewrite (on_worker_process_busy _ _ Hneed), Hin, Hout. cbn [fst snd].
  split; [reflexivity |].
  rewrite get_insert_eq. unfold worker_args. now rewrite <- !app_assoc.
Qed.

Lemma worker_argument_list_witness :
  get (fst (Hook.on_worker_process Sample.h264_file
              (Sample.worker_data "/library/movie.mkv" "/cache/movie.mp4")))
    "ffmpeg_args"
  = VList (VStr <$>
      ["-i"; "/library/movie.mkv"; "-hide_banner"; "-loglevel"; "info";
       "-map"; "0:v:0";
       "-c:v:0"; "libvpx-vp9"; "-crf"; "30"; "-b:v:0"; "0"; "-threads"; "8";
       "-row-mt"; "1"; "-deadline"; "good"; "-cpu-used"; "2";
       "-y"; "/cache/movie.mkv"]).
Proof.
  exact (proj2 (worker_argument_list Sample.h264_file
                  (Sample.worker_data "/library/movie.mkv" "/cache/movie.mp4")
                  "/library/movie.mkv" "/cache/movie.mp4"
                  eq_refl eq_refl eq_refl)).
Defined.

(** X2: when streams are to be converted, whatever the host had put under
    [ffmpeg_args] and [exec_ffmpeg] is discarded: the hook's outcome does
    not depend on these two entries. *)
Theorem worker_discards_host_arguments (mapper : FfmpegStreamMapper)
    (data : dict) (args flag : value) :
  streams_need_processing mapper = Ok true ->
  Hook.on_worker_process mapper
    (<["ffmpeg_args" := args]> (<["exec_ffmpeg" := flag]> data))
  = Hook.on_worker_process mapper data.
Proof.
  intros Hneed. rewrite !(on_worker_process_busy _ _ Hneed).
  rewrite !get_insert_ne by done.
  assert (forall (v w : value),
            <["ffmpeg_args" := v]> (<["exec_ffmpeg" := w]>
              (<["ffmpeg_args" := args]> (<["exec_ffmpeg" := flag]> data)))
            = <["ffmpeg_args" := v]> (<["exec_ffmpeg" := w]> data)) as Hsame.
  { intros v w. apply map_eq. intros k. rewrite !lookup_insert.
    repeat case_decide; subst; done. }
  assert (forall (v w o : value),
            <["ffmpeg_args" := v]> (<["file_out" := o]> (<["exec_ffmpeg" := w]>
              (<["ffmpeg_args" := args]> (<["exec_ffmpeg" := flag]> data))))
            = <["ffmpeg_args" := v]> (<["file_out" := o]>
                (<["exec_ffmpeg" := w]> data))) as Hsame'.
  { intros v w o. apply map_eq. intros k. rewrite !lookup_insert.
    repeat case_decide; subst; done. }
  destruct (get data "file_in"); rewrite ?Hsame; try reflexivity.
  destruct (get data "file_out"); rewrite ?Hsame, ?Hsame'; reflexivity.
Qed.

Lemma worker_discards_host_arguments_witness :
  Hook.on_worker_process Sample.h264_file
    (<["ffmpeg_args" := VNone]> (<["exec_ffmpeg" := VStr "yes"]>
       (Sample.worker_data "movie.mkv" "movie.mp4")))
  = Hook.on_worker_process Sample.h264_file
      (Sample.worker_data "movie.mkv" "movie.mp4").
Proof.
  apply (worker_discards_host_arguments Sample.h264_file
           (Sample.worker_data "movie.mkv" "movie.mp4") VNone (VStr "yes")).
  reflexivity.
Defined.

(** X3: when nothing is to be converted and the host supplied no
    [ffmpeg_args] entry, the hook raises [KeyError] at its final [print],
    after it has reset [exec_ffmpeg]. *)
Theorem worker_idle_needs_host_arguments (mapper : FfmpegStreamMapper)
    (data : dict) :
  streams_need_processing mapper = Ok false ->
  data !! "ffmpeg_args" = None ->
  Hook.on_worker_process mapper data
  = (<["exec_ffmpeg" := VBool false]> data, Raise KeyError).
Proof.
  intros Hneed Hnone. rewrite (on_worker_process_idle _ _ Hneed).
  now rewrite Hnone.
Qed.

Lemma worker_idle_needs_host_arguments_witness :
  snd (Hook.on_worker_process Sample.vp9_file
         {[ "file_in" := VStr "movie.mkv"; "file_out" := VStr "movie.mp4" ]})
  = Raise KeyError.
Proof.
  rewrite (worker_idle_needs_host_arguments Sample.vp9_file
             {[ "file_in" := VStr "movie.mkv"; "file_out" := VStr "movie.mp4" ]});
    [reflexivity | reflexivity | vm_compute; reflexivity].
Defined.

(** X4: when streams are to be converted and [file_in] or [file_out] is not
    a string (absent, [None], a number, a list), [os.path.splitext] raises
    [TypeError]; by then [exec_ffmpeg] is already true and [ffmpeg_args]
    holds the arguments without the output, while [file_out] is as the host
    supplied it. *)
Theorem worker_rejects_non_string_paths (mapper : FfmpegStreamMapper)
    (data : dict) :
  streams_need_processing mapper = Ok true ->
  is_str (get data "file_in") && is_str (get data "file_out") = false ->
  snd (Hook.on_worker_process mapper data) = Raise TypeError /\
  fst (Hook.on_worker_process mapper data)
  = <["ffmpeg_args" := VList (worker_args mapper (get data "file_in"))]>
      (<["exec_ffmpeg" := VBool true]> data) /\
  get (fst (Hook.on_worker_process mapper data)) "exec_ffmpeg" = VBool true /\
  fst (Hook.on_worker_process mapper data) !! "file_out" = data !! "file_out".
Proof.
  intros Hneed Hstr. rewrite (on_worker_process_busy _ _ Hneed).
  assert (get (<["ffmpeg_args" := VList (worker_args mapper (get data "file_in"))]>
                 (<["exec_ffmpeg" := VBool true]> data)) "exec_ffmpeg"
          = VBool true) as Hexec.
  { rewrite get_insert_ne by done. apply get_insert_eq. }
  assert ((<["ffmpeg_args" := VList (worker_args mapper (get data "file_in"))]>
             (<["exec_ffmpeg" := VBool true]> data)) !! "file_out"
          = data !! "file_out") as Hout.
  { now rewrite !lookup_insert_ne by done. }
  destruct (get data "file_in"); cbn [fst snd]; auto.
  destruct (get data "file_out"); cbn [fst snd]; auto.
  discriminate Hstr.
Qed.

Lemma worker_rejects_non_string_paths_witness :
  snd (Hook.on_worker_process Sample.h264_file
         {[ "file_out" := VStr "movie.mp4"; "ffmpeg_args" := VList [] ]})
  = Raise TypeError.
Proof.
  apply (worker_rejects_non_string_paths Sample.h264_file
           {[ "file_out" := VStr "movie.mp4"; "ffmpeg_args" := VList [] ]});
    reflexivity.
Defined.

(** X5: whatever the outcome, the worker hook touches no entry of [data]
    other than [exec_ffmpeg], [ffmpeg_args] and [file_out]. *)
Theorem worker_frame (mapper : FfmpegStreamMapper) (data : dict) (key : string) :
  key ∉ ["exec_ffmpeg"; "ffmpeg_args"; "file_out"] ->
  fst (Hook.on_worker_process mapper data) !! key = data !! key.
Proof.
  intros Hkey.
  assert (key <> "exec_ffmpeg" /\ key <> "ffmpeg_args" /\ key <> "file_out")
    as (H1 & H2 & H3).
  { repeat split; intros ->; apply Hkey; set_solver. }
  destruct (streams_need_processing mapper) as [[] | e] eqn:Hneed.
  - rewrite (on_worker_process_busy _ _ Hneed).
    destruct (get data "file_in"); cbn [fst];
      try (now rewrite !lookup_insert_ne by done).
    destruct (get data "file_out"); cbn [fst];
      now rewrite !lookup_insert_ne by done.
  - rewrite (on_worker_process_idle _ _ Hneed). cbn [fst].
    now rewrite lookup_insert_ne.
  - rewrite (on_worker_process_raised _ _ _ Hneed). cbn [fst].
    now rewrite lookup_insert_ne.
Qed.

Lemma worker_frame_witness :
  fst (Hook.on_worker_process Sample.h264_file
         (Sample.worker_data "movie.mkv" "movie.mp4")) !! "original_file_path"
  = Some (VStr "movie.mkv").
Proof.
  rewrite (worker_frame Sample.h264_file
             (Sample.worker_data "movie.mkv" "movie.mp4") "original_file_path").
  - reflexivity.
  - rewrite !elem_of_cons, elem_of_nil.
    intros [H | [H | [H | []]]]; discriminate H.
Defined.

Lemma exec_ffmpeg_after_worker (mapper : FfmpegStreamMapper) (data : dict) :
  get (fst (Hook.on_worker_process mapper data)) "exec_ffmpeg"
  = VBool (match streams_need_processing mapper with
           | Ok true => true
           | _ => false
           end).
Proof.
  destruct (streams_need_processing mapper) as [[] | e] eqn:Hneed.
  - rewrite (on_worker_process_busy _ _ Hneed).
    destruct (get data "file_in"); cbn [fst];
      try (rewrite get_insert_ne by done; apply get_insert_eq).
    destruct (get data "file_out"); cbn [fst];
      rewrite ?(get_insert_ne _ "ffmpeg_args") by done;
      rewrite ?(get_insert_ne _ "file_out") by done; apply get_insert_eq.
  - rewrite (on_worker_process_idle _ _ Hneed). apply get_insert_eq.
  - rewrite (on_worker_process_raised _ _ _ Hneed). apply get_insert_eq.
Qed.

(** X6: in every outcome, also when the hook raises, [exec_ffmpeg] ends up
    as a boolean, and it is true exactly when the mapper reported streams to
    convert. *)
Theorem worker_exec_flag (mapper : FfmpegStreamMapper) (data : dict) :
  get (fst (Hook.on_worker_process mapper data)) "exec_ffmpeg"
  = VBool (match streams_need_processing mapper with
           | Ok true => true
           | _ => false
           end).
Proof. apply exec_ffmpeg_after_worker. Qed.

(** X7: running the worker hook a second time on the dictionary it returned
    changes nothing, provided both paths have an extension: the output path
    it derived is derived again. *)
Theorem worker_idempotent (mapper : FfmpegStreamMapper) (data : dict)
    (fin fout : string) :
  streams_need_processing mapper = Ok true ->
  get data "file_in" = VStr fin ->
  get data "file_out" = VStr fout ->
  has_extension fin ->
  has_extension fout ->
  Hook.on_worker_process mapper (fst (Hook.on_worker_process mapper data))
  = Hook.on_worker_process mapper data.
Proof.
  intros Hneed Hin Hout Hext_in Hext_out.
  rewrite (on_worker_process_busy _ data Hneed), Hin, Hout. cbn [fst].
  rewrite (on_worker_process_busy _ _ Hneed).
  rewrite (get_insert_ne _ "ffmpeg_args" "file_in") by done.
  rewrite (get_insert_ne _ "file_out" "file_in") by done.
  rewrite (get_insert_ne _ "exec_ffmpeg" "file_in") by done.
  rewrite (get_insert_ne _ "ffmpeg_args" "file_out") by done.
  rewrite get_insert_eq, Hin.
  rewrite (splitext_replace_extension _ _ Hext_in Hext_out). cbn [fst snd].
  f_equal. apply map_eq. intros k. rewrite !lookup_insert.
  repeat case_decide; subst; done.
Qed.

Lemma worker_idempotent_witness :
  Hook.on_worker_process Sample.h264_file
    (fst (Hook.on_worker_process Sample.h264_file
            (Sample.worker_data "/library/movie.mkv" "/cache/movie.mp4")))
  = Hook.on_worker_process Sample.h264_file
      (Sample.worker_data "/library/movie.mkv" "/cache/movie.mp4").
Proof.
  apply (worker_idempotent Sample.h264_file
           (Sample.worker_data "/library/movie.mkv" "/cache/movie.mp4")
           "/library/movie.mkv" "/cache/movie.mp4");
    try reflexivity; vm_compute; discriminate.
Defined.

(** X8: when the output target already carries the extension of the input
    (both may have none), the hook leaves [file_out] exactly as the host
    supplied it. *)
Theorem worker_same_extension_keeps_target (mapper : FfmpegStreamMapper)
    (data : dict) (fin fout : string) :
  streams_need_processing mapper = Ok true ->
  get data "file_in" = VStr fin ->
  get data "file_out" = VStr fout ->
  snd (splitext fin) = snd (splitext fout) ->
  get (fst (Hook.on_worker_process mapper data)) "file_out" = VStr fout.
Proof.
  intros Hneed Hin Hout Hsame.
  rewrite (on_worker_process_busy _ _ Hneed), Hin, Hout. cbn [fst].
  rewrite get_insert_ne by done. rewrite get_insert_eq.
  now rewrite Hsame, splitext_join.
Qed.

Lemma worker_same_extension_keeps_target_witness :
  get (fst (Hook.on_worker_process Sample.h264_file
              (Sample.worker_data "/library/a.b/movie.mkv"
                 "/cache/movie-1.2.mkv")))
    "file_out" = VStr "/cache/movie-1.2.mkv".
Proof.
  apply (worker_same_extension_keeps_target Sample.h264_file
           (Sample.worker_data "/library/a.b/movie.mkv" "/cache/movie-1.2.mkv")
           "/library/a.b/movie.mkv" "/cache/movie-1.2.mkv");
    reflexivity.
Defined.

(** X9: an exception raised by the mapper's decision leaves both hooks
    unhandled: the file test has changed nothing, the worker hook has only
    reset [exec_ffmpeg]. *)
Theorem mapper_error_propagates (mapper : FfmpegStreamMapper) (data : dict)
    (e : exn) :
  streams_need_processing mapper = Raise e ->
  Hook.on_library_management_file_test mapper data = (data, Raise e) /\
  Hook.on_worker_process mapper data
  = (<["exec_ffmpeg" := VBool false]> data, Raise e).
Proof.
  intros Hneed. split.
  - unfold Hook.on_library_management_file_test, Hook.bind, Hook.lift,
      Hook.data_get. now rewrite Hneed.
  - now apply on_worker_process_raised.
Qed.

Lemma mapper_error_propagates_witness :
  Hook.on_library_management_file_test
    (Engine.probe Sample.settings
       [ {[ "index" := VInt 0; "stream_type" := VStr "video" ]} ])
    (Sample.test_data "/library/movie.mkv" false)
  = (Sample.test_data "/library/movie.mkv" false, Raise AttributeError).
Proof.
  apply (mapper_error_propagates
           (Engine.probe Sample.settings
              [ {[ "index" := VInt 0; "stream_type" := VStr "video" ]} ])
           (Sample.test_data "/library/movie.mkv" false) AttributeError).
  reflexivity.
Defined.

(** ** Further properties of the file test *)

(** X10: the file test is idempotent: applied to the dictionary it
    returned, it returns the same dictionary with the same outcome. *)
Theorem file_test_idempotent (mapper : FfmpegStreamMapper) (data : dict) :
  Hook.on_library_management_file_test mapper
    (fst (Hook.on_library_management_file_test mapper data))
  = Hook.on_library_management_file_test mapper data.
Proof.
  unfold Hook.on_library_management_file_test, Hook.bind, Hook.lift,
    Hook.data_set, Hook.data_get, Hook.ret.
  destruct (streams_need_processing mapper) as [[] | e]; cbn [fst];
    try reflexivity.
  now rewrite insert_insert_eq.
Qed.

(** X11: the two hooks agree.  For a file the host had not yet marked, the
    file test marks it for the pending tasks exactly when the worker hook,
    given the same answers of the mapper, asks for ffmpeg to be run. *)
Theorem queued_iff_transcoded (mapper : FfmpegStreamMapper)
    (test_data worker_data : dict) :
  test_data !! Hook.flag_key <> Some (VBool true) ->
  fst (Hook.on_library_management_file_test mapper test_data) !! Hook.flag_key
  = Some (VBool true)
  <-> get (fst (Hook.on_worker_process mapper worker_data)) "exec_ffmpeg"
      = VBool true.
Proof.
  intros Hunmarked. rewrite exec_ffmpeg_after_worker.
  unfold Hook.on_library_management_file_test, Hook.bind, Hook.lift,
    Hook.data_set, Hook.data_get, Hook.ret.
  destruct (streams_need_processing mapper) as [[] | e]; cbn [fst].
  - rewrite lookup_insert_eq. tauto.
  - split; [contradiction | discriminate].
  - split; [contradiction | discriminate].
Qed.

Lemma queued_iff_transcoded_witness :
  get (fst (Hook.on_worker_process Sample.h264_file
              (Sample.worker_data "movie.mkv" "movie.mp4")))
    "exec_ffmpeg" = VBool true.
Proof.
  apply (queued_iff_transcoded Sample.h264_file
           (Sample.test_data "movie.mkv" false)
           (Sample.worker_data "movie.mkv" "movie.mp4")).
  - vm_compute. discriminate.
  - reflexivity.
Defined.

(** ** Further properties of the encoder arguments *)

Lemma app_inv_head_str (a b c : string) : a +:+ b = a +:+ c -> b = c.
Proof.
  induction a as [| x a IH]; [auto |].
  rewrite !app_cons_str. intros [= H]. auto.
Qed.

Lemma encoding_head (settings : Settings) (stream : dict) (stream_id : Z) :
  exists rest : list string,
    stream_encoding (StreamMapper.custom_stream_mapping settings stream stream_id)
    = ("-c:v:" +:+ format_int stream_id) :: rest.
Proof. by_mode settings; eexists; reflexivity. Qed.

Lemma encoding_of_unlisted_mode (settings : Settings) (stream : dict)
    (stream_id : Z) :
  mode settings ∉ recognized_modes ->
  stream_encoding (StreamMapper.custom_stream_mapping settings stream stream_id)
  = ["-c:v:" +:+ format_int stream_id; "libvpx-vp9"; "-b:v"; "2M"].
Proof.
  intros Hmode. unfold recognized_modes in Hmode.
  by_mode settings; try reflexivity; exfalso; apply Hmode; set_solver.
Qed.

(** X12: fragments of different streams never address the same stream: if
    the stream selectors, or the codec-selection options, derived for two
    stream ids coincide, the ids are equal, whatever the settings and the
    stream metadata. *)
Theorem stream_id_injective (settings settings' : Settings)
    (stream stream' : dict) (i j : Z) :
  stream_mapping (StreamMapper.custom_stream_mapping settings stream i)
  = stream_mapping (StreamMapper.custom_stream_mapping settings' stream' j)
  \/ head (stream_encoding (StreamMapper.custom_stream_mapping settings stream i))
     = head (stream_encoding
               (StreamMapper.custom_stream_mapping settings' stream' j)) ->
  i = j.
Proof.
  intros [H | H].
  - cbn [StreamMapper.custom_stream_mapping stream_mapping] in H.
    injection H as H. apply app_inv_head_str in H.
    now apply pretty_Z_inj in H.
  - destruct (encoding_head settings stream i) as [rest Hrest].
    destruct (encoding_head settings' stream' j) as [rest' Hrest'].
    rewrite Hrest, Hrest' in H.
    cbn [head] in H. injection H as H. apply app_inv_head_str in H.
    now apply pretty_Z_inj in H.
Qed.

Lemma stream_id_injective_witness :
  stream_mapping (StreamMapper.custom_stream_mapping Sample.settings ∅ 7)
  = stream_mapping
      (StreamMapper.custom_stream_mapping default_settings Sample.h264_stream
         (3 + 4)) /\
  7 = 3 + 4.
Proof.
  split; [reflexivity |].
  apply (stream_id_injective Sample.settings default_settings
           ∅ Sample.h264_stream 7 (3 + 4)).
  left. reflexivity.
Defined.

(** X13: in every mode, and in the fallback, the encoder arguments are a
    sequence of option/value pairs: their number is even and every option
    starts with a dash, whatever the configured values are. *)
Theorem encoder_args_are_option_pairs (settings : Settings) (stream : dict)
    (stream_id : Z) :
  Nat.even (List.length (stream_encoding
                      (StreamMapper.custom_stream_mapping settings stream stream_id)))
  = true /\
  Forall (fun option => exists rest, option = String "-" rest)
    (option_names (stream_encoding
                     (StreamMapper.custom_stream_mapping settings stream stream_id))).
Proof.
  split.
  - by_mode settings; reflexivity.
  - by_mode settings; repeat constructor; eexists;
      rewrite ?app_cons_str; reflexivity.
Qed.

(** X14: the modes the settings form offers are exactly the modes that have
    a branch of their own in [custom_stream_mapping]: the encoder arguments
    end with the thread, row-mt, deadline and cpu-used arguments iff the
    configured mode is one of the select options.  The declared default
    mode and default deadline are among the options of their select
    boxes. *)
Theorem form_modes_are_handled (settings : Settings) (stream : dict)
    (stream_id : Z) :
  (mode settings ∈ select_values "mode" <->
   exists front : list string,
     stream_encoding (StreamMapper.custom_stream_mapping settings stream stream_id)
     = (front ++ ["-threads"; "8"; "-row-mt"; "1";
                  "-deadline"; deadline settings;
                  "-cpu-used"; cpu_used settings])%list) /\
  mode default_settings ∈ select_values "mode" /\
  deadline default_settings ∈ select_values "deadline".
Proof.
  split; [| split; vm_compute; set_solver].
  change (select_values "mode") with recognized_modes.
  destruct (decide (mode settings ∈ recognized_modes)) as [Hin | Hout].
  - split; [intros _ | auto].
    unfold recognized_modes in Hin.
    rewrite !elem_of_cons, elem_of_nil in Hin.
    destruct settings as [m c b d u]. cbn [mode] in Hin.
    destruct Hin as [-> | [-> | [-> | [-> | [-> | []]]]]];
      cbn [StreamMapper.custom_stream_mapping stream_encoding mode String.eqb
           Ascii.eqb Bool.eqb deadline cpu_used bitrate crf].
    + now exists ["-c:v:" +:+ format_int stream_id; "libvpx-vp9";
                  "-b:v:" +:+ format_int stream_id; b].
    + now exists ["-c:v:" +:+ format_int stream_id; "libvpx-vp9"; "-crf"; c;
                  "-b:v:" +:+ format_int stream_id; "0"].
    + now exists ["-c:v:" +:+ format_int stream_id; "libvpx-vp9"; "-crf"; c;
                  "-b:v:" +:+ format_int stream_id; b].
    + now exists ["-c:v:" +:+ format_int stream_id; "libvpx-vp9";
                  "-minrate"; b; "-maxrate"; b;
                  "-b:v:" +:+ format_int stream_id; b].
    + now exists ["-c:v:" +:+ format_int stream_id; "libvpx-vp9";
                  "-lossless"; "1"].
  - split; [contradiction |].
    rewrite (encoding_of_unlisted_mode _ stream stream_id Hout).
    intros [front Hfront].
    apply (f_equal (@List.length string)) in Hfront.
    rewrite List.length_app in Hfront. cbn [List.length] in Hfront. lia.
Qed.

(** ** The directory of the output path *)

Lemma take_str_app_le (n : nat) (a b : string) :
  (n <= String.length a)%nat -> take_str n (a +:+ b) = take_str n a.
Proof.
  revert a. induction n as [| n IH]; intros [| c a]; simpl_str; intros H;
    try reflexivity; try lia.
  rewrite IH; [reflexivity | lia].
Qed.

Lemma extension_without_separator (p : string) :
  rfind sep (snd (splitext p)) = -1.
Proof.
  destruct (snd (splitext p)) as [| c ext] eqn:Hext; [reflexivity |].
  rewrite <- Hext. apply extension_shape.
  unfold has_extension. now rewrite Hext.
Qed.

Lemma root_keeps_separator (p : string) :
  rfind sep (fst (splitext p)) = rfind sep p.
Proof.
  pose proof (rfind_app sep (fst (splitext p)) (snd (splitext p))) as Happ.
  rewrite splitext_join, extension_without_separator in Happ.
  simpl in Happ. now symmetry.
Qed.

(** X15: the hook never moves the output to another directory: the output
    path it derives has its last separator where the host's output target
    has it, and agrees with the target up to and including that separator,
    whether or not the paths have extensions. *)
Theorem worker_keeps_output_directory (mapper : FfmpegStreamMapper)
    (data : dict) (fin fout : string) :
  streams_need_processing mapper = Ok true ->
  get data "file_in" = VStr fin ->
  get data "file_out" = VStr fout ->
  exists out : string,
    get (fst (Hook.on_worker_process mapper data)) "file_out" = VStr out /\
    rfind sep out = rfind sep fout /\
    take_str (Z.to_nat (rfind sep fout + 1)) out
    = take_str (Z.to_nat (rfind sep fout + 1)) fout.
Proof.
  intros Hneed Hin Hout.
  exists (fst (splitext fout) +:+ snd (splitext fin)).
  rewrite (on_worker_process_busy _ _ Hneed), Hin, Hout. cbn [fst].
  rewrite get_insert_ne by done. rewrite get_insert_eq.
  split; [reflexivity |].
  pose proof (root_keeps_separator fout) as Hroot.
  pose proof (rfind_bounds sep (fst (splitext fout))) as Hb.
  split.
  - rewrite rfind_app, extension_without_separator. simpl. exact Hroot.
  - set (n := Z.to_nat (rfind sep fout + 1)).
    assert (n <= String.length (fst (splitext fout)))%nat as Hn by lia.
    rewrite (take_str_app_le _ _ _ Hn).
    rewrite <- (take_str_app_le _ _ (snd (splitext fout)) Hn).
    now rewrite splitext_join.
Qed.

Lemma worker_keeps_output_directory_witness :
  exists out : string,
    get (fst (Hook.on_worker_process Sample.h264_file
                (Sample.worker_data "/library/tv/movie.mkv" "/cache/job.1/movie")))
      "file_out" = VStr out /\
    rfind sep out = rfind sep "/cache/job.1/movie" /\
    take_str (Z.to_nat (rfind sep "/cache/job.1/movie" + 1)) out
    = take_str (Z.to_nat (rfind sep "/cache/job.1/movie" + 1))
        "/cache/job.1/movie".
Proof.
  apply (worker_keeps_output_directory Sample.h264_file
           (Sample.worker_data "/library/tv/movie.mkv" "/cache/job.1/movie")
           "/library/tv/movie.mkv" "/cache/job.1/movie");
    reflexivity.
Defined.
